(** * The Kubernetes subnet manager of flannel (subnet/kube/kube.go)

    A shallow embedding of [kubeSubnetManager]: the event handlers that
    turn node notifications into lease events, [AcquireLease], which
    annotates the local node through a strategic merge patch, and
    [WatchLeases], which takes one event from the channel or gives up when
    the context is done.

    Go maps are [gmap]s (a nil map is [None]), strings are [string]s, the
    [events] channel is the list of the events it buffers, and the calls the
    manager makes on the Kubernetes client are recorded in the client. *)

From Stdlib Require Import ZArith Ascii String.
From stdpp Require Import base option gmap strings list pretty.

Open Scope Z_scope.
Open Scope string_scope.

(** ** Constants of the package *)

Definition subnetKubeManagedAnnotation : string :=
  "flannel.alpha.coreos.com/kube-subnet-manager".
Definition backendDataAnnotation : string :=
  "flannel.alpha.coreos.com/backend-data".
Definition backendTypeAnnotation : string :=
  "flannel.alpha.coreos.com/backend-type".
Definition backendPublicIPAnnotation : string :=
  "flannel.alpha.coreos.com/public-ip".
Definition backendPublicIPOverwriteAnnotation : string :=
  "flannel.alpha.coreos.com/public-ip-overwrite".

(** Capacity of the [events] channel: [make(chan subnet.Event, 5000)]. *)
Definition eventsCap : nat := 5000.

(** ** Errors and results *)

Inductive error : Type :=
| ErrUnimplemented
| ErrNotFound (name : string)
| ErrPodCIDRNotAssigned (node : string)
| ErrLibrary (msg : string).

(** What a call comes to: it returns a value, returns a non-nil [error],
    panics, or its goroutine stays parked on a channel operation. *)
Inductive result (A : Type) : Type :=
| Ok (a : A)
| Err (e : error)
| Panic
| Blocked.
Arguments Ok {A} a.
Arguments Err {A} e.
Arguments Panic {A}.
Arguments Blocked {A}.

#[global] Instance result_ret : MRet result := fun A a => Ok a.
#[global] Instance result_bind : MBind result := fun A B f r =>
  match r with
  | Ok a => f a
  | Err e => Err e
  | Panic => Panic
  | Blocked => Blocked
  end.

(** ** Data of the packages the manager works with *)

(** [ip.IP4] is a [uint32]; [ip.IP4Net] a network address with the length of
    its prefix. *)
Definition IP4 : Type := Z.

Record IP4Net : Type := mkIP4Net { IP : IP4; PrefixLen : Z }.

(** [json.RawMessage] is a byte slice, [None] is the nil slice. *)
Definition RawMessage : Type := option string.

(** [time.Time] and [time.Duration] count nanoseconds. *)
Definition Time : Type := Z.
Definition Duration : Type := Z.
Definition Hour : Duration := 3600 * 1000000000.
Definition Time_Add (t : Time) (d : Duration) : Time := t + d.

Record LeaseAttrs : Type := mkLeaseAttrs {
  PublicIP : IP4;
  BackendType : string;
  BackendData : RawMessage
}.

Record Lease : Type := mkLease {
  Subnet : IP4Net;
  Attrs : LeaseAttrs;
  Expiration : Time
}.

Inductive EventType : Type := EventAdded | EventRemoved.

(** [subnet.Event{Type, Lease}] *)
Record Event : Type := mkEvent { Event_Type : EventType; Event_Lease : Lease }.

(** [subnet.LeaseWatchResult]; its [Cursor], an interface value, stays nil
    in this package and is left out. *)
Record LeaseWatchResult : Type := mkLeaseWatchResult {
  Events : list Event;
  Snapshot : list Lease
}.

(** The part of [v1.Node] the package reads and writes, and labels as a
    second piece of metadata next to the annotations. *)
Record ObjectMeta : Type := mkObjectMeta {
  Name : string;
  Labels : gmap string string;
  Annotations : option (gmap string string)
}.

Record NodeSpec : Type := mkNodeSpec { PodCIDR : string }.

Record Node : Type := mkNode { Meta : ObjectMeta; Spec : NodeSpec }.

(** What the informer hands to a handler as [interface{}]: a node, or the
    tombstone [cache.DeletedFinalStateUnknown] of a missed deletion. *)
Inductive Obj : Type :=
| ObjNode (n : Node)
| ObjTombstone (key : string).

(** ** Go maps *)

(** [v, ok := m[k]] *)
Definition mapIndex2 (m : option (gmap string string)) (k : string) : option string :=
  m ≫= (fun a => a !! k).

(** [m[k]]: the zero value when the key is absent or the map nil. *)
Definition mapIndex (m : option (gmap string string)) (k : string) : string :=
  default "" (mapIndex2 m k).

(** [m[k] = v]: an assignment to an entry of a nil map panics. *)
Definition mapAssign (m : option (gmap string string)) (k v : string)
  : result (option (gmap string string)) :=
  match m with
  | Some a => Ok (Some (<[k := v]> a))
  | None => Panic
  end.

(** [n.Annotations[k]] *)
Definition annotation (n : Node) (k : string) : string :=
  mapIndex (Annotations (Meta n)) k.

(** [n.Annotations[k] = v] *)
Definition setAnnotation (k v : string) (n : Node) : result Node :=
  a ← mapAssign (Annotations (Meta n)) k v;
  mret (mkNode (mkObjectMeta (Name (Meta n)) (Labels (Meta n)) a) (Spec n)).

(** ** The Kubernetes client and the patch it is sent *)

(** A strategic merge patch of a node: per map key the new value ([Some v])
    or its removal ([None]); per plain field the new value, if any. *)
Record Patch : Type := mkPatch {
  patchName : option string;
  patchLabels : gmap string (option string);
  patchAnnotations : gmap string (option string);
  patchPodCIDR : option string
}.

Definition diffField (old new : string) : option string :=
  if decide (old = new) then None else Some new.

Definition diffMap (old new : gmap string string) : gmap string (option string) :=
  merge (fun o n =>
           match o, n with
           | _, Some v => if decide (o = Some v) then None else Some (Some v)
           | Some _, None => Some None
           | None, None => None
           end) old new.

(** Modelled from the spec: [strategicpatch.CreateTwoWayMergePatch] and
    [json.Marshal] are library functions whose source is not part of the
    package. The spec has this step compute a minimal patch expressing only
    the changed keys, relative to the snapshot. In the JSON of a node a nil
    map and an empty map are both left out. *)
Definition CreateTwoWayMergePatch (old new : Node) : result Patch :=
  Ok (mkPatch
        (diffField (Name (Meta old)) (Name (Meta new)))
        (diffMap (Labels (Meta old)) (Labels (Meta new)))
        (diffMap (default ∅ (Annotations (Meta old)))
                 (default ∅ (Annotations (Meta new))))
        (diffField (PodCIDR (Spec old)) (PodCIDR (Spec new)))).

Definition emptyPatch : Patch := mkPatch None ∅ ∅ None.

Definition applyPatchMap (p : gmap string (option string)) (m : gmap string string)
  : gmap string string :=
  merge (fun pv mv =>
           match pv with
           | Some (Some v) => Some v
           | Some None => None
           | None => mv
           end) p m.

(** Modelled from the spec: the directory service, which is outside the
    package, applies a patch to the entry it holds; the keys the patch names
    change, the others stay. *)
Definition applyPatch (p : Patch) (n : Node) : Node :=
  mkNode
    (mkObjectMeta
       (default (Name (Meta n)) (patchName p))
       (applyPatchMap (patchLabels p) (Labels (Meta n)))
       (Some (applyPatchMap (patchAnnotations p) (default ∅ (Annotations (Meta n))))))
    (mkNodeSpec (default (PodCIDR (Spec n)) (patchPodCIDR p))).

Inductive PatchType : Type :=
| JSONPatchType
| MergePatchType
| StrategicMergePatchType.

(** One call of [Nodes().Patch(name, pt, data, subresources...)]. *)
Record PatchCall : Type := mkPatchCall {
  call_name : string;
  call_type : PatchType;
  call_patch : Patch;
  call_subresources : list string
}.

(** [clientset.Interface], as far as the manager uses it: the patch calls
    it has received, oldest first, and the error it answers a call with
    ([None] is nil). *)
Record Clientset : Type := mkClientset {
  patchCalls : list PatchCall;
  patchReply : PatchCall -> option error
}.

(** ** The manager *)

(** [nodeStore] is the informer's cache, by node name; [events] the
    buffered channel, oldest event first. *)
Record kubeSubnetManager : Type := mkKSM {
  client : Clientset;
  nodeName : string;
  nodeStore : gmap string Node;
  events : list Event
}.

(** Methods of the manager: they read and change its parts and end in a
    [result]. *)
Definition M (A : Type) : Type :=
  kubeSubnetManager -> result A * kubeSubnetManager.

#[global] Instance M_ret : MRet M := fun A a ksm => (Ok a, ksm).
#[global] Instance M_bind : MBind M := fun A B f m ksm =>
  match m ksm with
  | (Ok a, ksm') => f a ksm'
  | (Err e, ksm') => (Err e, ksm')
  | (Panic, ksm') => (Panic, ksm')
  | (Blocked, ksm') => (Blocked, ksm')
  end.

(** A library call inside a method. *)
Definition lift {A : Type} (r : result A) : M A := fun ksm => (r, ksm).

Definition fail {A : Type} (e : error) : M A := lift (Err e).

Definition gets {A : Type} (f : kubeSubnetManager -> A) : M A :=
  fun ksm => (Ok (f ksm), ksm).

(** [ksm.nodeStore.Get(name)] *)
Definition nodeStore_Get (name : string) : M Node := fun ksm =>
  match nodeStore ksm !! name with
  | Some n => (Ok n, ksm)
  | None => (Err (ErrNotFound name), ksm)
  end.

(** [api.Scheme.DeepCopy]: the copy shares nothing with the cached node;
    with values in place of pointers that is the node itself. *)
Definition DeepCopy (n : Node) : M Node := mret n.

(** The manager once its client has received [call]. *)
Definition received (call : PatchCall) (ksm : kubeSubnetManager) : kubeSubnetManager :=
  mkKSM (mkClientset (patchCalls (client ksm) ++ [call]) (patchReply (client ksm)))
        (nodeName ksm) (nodeStore ksm) (events ksm).

(** [ksm.client.CoreV1().Nodes().Patch(...)]: the client receives the call
    and answers; the node it returns is not used. *)
Definition client_Patch (name : string) (pt : PatchType) (data : Patch)
           (subresources : list string) : M unit := fun ksm =>
  let call := mkPatchCall name pt data subresources in
  match patchReply (client ksm) call with
  | None => (Ok tt, received call ksm)
  | Some e => (Err e, received call ksm)
  end.

(** [ksm.events <- e]: the send waits while the buffer is full. *)
Definition chanSend (e : Event) : M unit := fun ksm =>
  if decide (length (events ksm) < eventsCap)%nat
  then (Ok tt, mkKSM (client ksm) (nodeName ksm) (nodeStore ksm) (events ksm ++ [e]))
  else (Blocked, ksm).

(** The type assertion of [obj] to a node pointer: it panics on anything
    but a node. *)
Definition assertNode (obj : Obj) : M Node :=
  match obj with
  | ObjNode n => mret n
  | ObjTombstone _ => lift Panic
  end.

(** ** Functions of other packages

    [net.ParseCIDR] (its second result), [ip.FromIPNet], [ip.IP4.String],
    [ip.ParseIP4] and [json.RawMessage.MarshalJSON] are defined outside the
    package; the manager is defined over any behaviour of theirs. *)
Class Packages : Type := mkPackages {
  IPNet : Type;
  net_ParseCIDR : string -> result IPNet;
  ip_FromIPNet : IPNet -> IP4Net;
  IP4_String : IP4 -> string;
  ip_ParseIP4 : string -> result IP4;
  RawMessage_MarshalJSON : RawMessage -> result string
}.

Section Manager.
Context {pkgs : Packages}.

(** [nodeToLease]: the lease a node's annotations and pod CIDR stand for. *)
Definition nodeToLease (n : Node) : result Lease :=
  publicIP ← ip_ParseIP4 (annotation n backendPublicIPAnnotation);
  let backendType := annotation n backendTypeAnnotation in
  let backendData := Some (annotation n backendDataAnnotation) in
  cidr ← net_ParseCIDR (PodCIDR (Spec n));
  mret (mkLease (ip_FromIPNet cidr) (mkLeaseAttrs publicIP backendType backendData) 0).

(** [s, ok := n.Annotations[subnetKubeManagedAnnotation]; !ok || s != "true"] *)
Definition notManaged (n : Node) : bool :=
  match mapIndex2 (Annotations (Meta n)) subnetKubeManagedAnnotation with
  | Some s => bool_decide (s ≠ "true")
  | None => true
  end.

(** The handler of added and deleted nodes. An error of [nodeToLease] is
    logged and the notification dropped. *)
Definition handleAddLeaseEvent (et : EventType) (obj : Obj) : M unit :=
  n ← assertNode obj;
  if notManaged n then mret tt else
  match nodeToLease n with
  | Ok l => chanSend (mkEvent et l)
  | Err _ => mret tt
  | Panic => lift Panic
  | Blocked => lift Blocked
  end.

(** The handler of updated nodes. *)
Definition handleUpdateLeaseEvent (oldObj newObj : Obj) : M unit :=
  o ← assertNode oldObj;
  n ← assertNode newObj;
  if notManaged n then mret tt else
  if bool_decide (annotation o backendDataAnnotation = annotation n backendDataAnnotation)
     && bool_decide (annotation o backendTypeAnnotation = annotation n backendTypeAnnotation)
     && bool_decide (annotation o backendPublicIPAnnotation = annotation n backendPublicIPAnnotation)
  then mret tt (* No change to lease *)
  else
    match nodeToLease n with
    | Ok l => chanSend (mkEvent EventAdded l)
    | Err _ => mret tt
    | Panic => lift Panic
    | Blocked => lift Blocked
    end.

(** The handlers as [newKubeSubnetManager] registers them. *)
Definition AddFunc (obj : Obj) : M unit := handleAddLeaseEvent EventAdded obj.
Definition UpdateFunc (oldObj newObj : Obj) : M unit := handleUpdateLeaseEvent oldObj newObj.
Definition DeleteFunc (obj : Obj) : M unit := handleAddLeaseEvent EventRemoved obj.

(** The comparison that guards the write in [AcquireLease]: [bd] is the
    marshalled backend data. *)
Definition leaseChanged (n : Node) (bd : string) (attrs : LeaseAttrs) : bool :=
  bool_decide (annotation n backendDataAnnotation ≠ bd)
  || bool_decide (annotation n backendTypeAnnotation ≠ BackendType attrs)
  || bool_decide (annotation n backendPublicIPAnnotation ≠ IP4_String (PublicIP attrs))
  || bool_decide (annotation n subnetKubeManagedAnnotation ≠ "true")
  || (bool_decide (annotation n backendPublicIPOverwriteAnnotation ≠ "")
      && bool_decide (annotation n backendPublicIPOverwriteAnnotation
                      ≠ IP4_String (PublicIP attrs))).

(** The assignments [AcquireLease] makes to the annotations of its copy of
    the node before it diffs the copy against the cached node. The log line
    on overriding the public IP is left out. *)
Definition annotateNode (n : Node) (bd : string) (attrs : LeaseAttrs) : result Node :=
  n ← setAnnotation backendTypeAnnotation (BackendType attrs) n;
  n ← setAnnotation backendDataAnnotation bd n;
  n ← (if bool_decide (annotation n backendPublicIPOverwriteAnnotation ≠ "")
       then
         if bool_decide (annotation n backendPublicIPAnnotation
                         ≠ annotation n backendPublicIPOverwriteAnnotation)
         then setAnnotation backendPublicIPAnnotation
                (annotation n backendPublicIPOverwriteAnnotation) n
         else mret n
       else setAnnotation backendPublicIPAnnotation (IP4_String (PublicIP attrs)) n);
  setAnnotation subnetKubeManagedAnnotation "true" n.

(** [AcquireLease]; [now] is what [time.Now()] reads when the lease is
    built. *)
Definition AcquireLease (now : Time) (attrs : LeaseAttrs) : M Lease :=
  name ← gets nodeName;
  cachedNode ← nodeStore_Get name;
  n ← DeepCopy cachedNode;
  if decide (PodCIDR (Spec n) = "") then fail (ErrPodCIDRNotAssigned name) else
  bd ← lift (RawMessage_MarshalJSON (BackendData attrs));
  cidr ← lift (net_ParseCIDR (PodCIDR (Spec n)));
  _ ← (if leaseChanged n bd attrs
       then
         n ← lift (annotateNode n bd attrs);
         patchBytes ← lift (CreateTwoWayMergePatch cachedNode n);
         client_Patch name StrategicMergePatchType patchBytes ["status"]
       else mret tt);
  mret (mkLease (ip_FromIPNet cidr) attrs (Time_Add now (24 * Hour))).

(** The keys [annotateNode] may assign to. *)
Definition leaseKeys : list string :=
  [backendTypeAnnotation; backendDataAnnotation; backendPublicIPAnnotation;
   subnetKubeManagedAnnotation].

(** The lease a call that succeeds returns. *)
Definition acquired (now : Time) (attrs : LeaseAttrs) (cidr : IPNet) : Lease :=
  mkLease (ip_FromIPNet cidr) attrs (now + 86400000000000).

(** The call [AcquireLease] makes on the client: [n] is the cached node,
    [n'] the annotated copy. *)
Definition patchCall (ksm : kubeSubnetManager) (n n' : Node) : PatchCall :=
  mkPatchCall (nodeName ksm) StrategicMergePatchType
    (mkPatch (diffField (Name (Meta n)) (Name (Meta n')))
             (diffMap (Labels (Meta n)) (Labels (Meta n')))
             (diffMap (default ∅ (Annotations (Meta n)))
                      (default ∅ (Annotations (Meta n'))))
             (diffField (PodCIDR (Spec n)) (PodCIDR (Spec n'))))
    ["status"].

(** The case a [select] takes when it can proceed. *)
Inductive selectCase : Type := caseEvent | caseDone.

(** [WatchLeases]: [done] tells whether [ctx.Done()] is closed. With both
    cases ready Go chooses one at random, here [pick]; with none ready the
    call waits. *)
Definition WatchLeases (pick : selectCase) (done : bool) : M LeaseWatchResult :=
  fun ksm =>
  let onDone := (Ok (mkLeaseWatchResult [] []), ksm) in
  match events ksm with
  | event :: rest =>
      let onEvent :=
        (Ok (mkLeaseWatchResult [event] []),
         mkKSM (client ksm) (nodeName ksm) (nodeStore ksm) rest) in
      if done then match pick with caseEvent => onEvent | caseDone => onDone end
      else onEvent
  | [] => if done then onDone else (Blocked, ksm)
  end.

(** Unimplemented in this manager. *)
Definition RenewLease (lease : Lease) : M unit := fail ErrUnimplemented.

End Manager.

(** The informer stores the entry [n], as the directory now has it, in the
    cache under the name of the local node. *)
Definition cacheNode (n : Node) (ksm : kubeSubnetManager) : kubeSubnetManager :=
  mkKSM (client ksm) (nodeName ksm) (<[nodeName ksm := n]> (nodeStore ksm)) (events ksm).

(** ** The functions of the other packages on dotted IPv4 text

    These stand in for the Go functions where an example needs them run. *)

Definition digitValue (c : ascii) : option Z :=
  let n := Z.of_N (Ascii.N_of_ascii c) in
  if decide (48 <= n <= 57) then Some (n - 48) else None.

Fixpoint parseDigits (acc : Z) (s : string) : option Z :=
  match s with
  | EmptyString => Some acc
  | String c rest => d ← digitValue c; parseDigits (10 * acc + d) rest
  end.

(** A non-empty run of decimal digits with a value of at most [bound]. *)
Definition parseDecimal (bound : Z) (s : string) : option Z :=
  if decide (s = "") then None
  else v ← parseDigits 0 s; if decide (v <= bound) then Some v else None.

(** The pieces of [s] between the occurrences of [sep]. *)
Fixpoint splitOn (sep : ascii) (s : string) : list string :=
  match s with
  | EmptyString => [""]
  | String c rest =>
      if decide (c = sep) then "" :: splitOn sep rest
      else match splitOn sep rest with
           | piece :: pieces => String c piece :: pieces
           | [] => [String c ""]
           end
  end.

(** Modelled from the spec: [ip.ParseIP4] is defined in pkg/ip, outside the
    package; the spec asks that the public IP parse as a valid dotted
    IPv4. *)
Definition ParseIP4_dotted (s : string) : result IP4 :=
  match splitOn "." s with
  | [a; b; c; d] =>
      match parseDecimal 255 a, parseDecimal 255 b, parseDecimal 255 c, parseDecimal 255 d with
      | Some a, Some b, Some c, Some d =>
          Ok (Z.lor (Z.shiftl a 24) (Z.lor (Z.shiftl b 16) (Z.lor (Z.shiftl c 8) d)))
      | _, _, _, _ => Err (ErrLibrary "Invalid IP address format")
      end
  | _ => Err (ErrLibrary "Invalid IP address format")
  end.

Definition octet (ip : IP4) (shift : Z) : string :=
  pretty (Z.to_N (Z.land (Z.shiftr ip shift) 255)).

(** Modelled from the spec: [ip.IP4.String] is defined in pkg/ip, outside
    the package; an IPv4 address is written as its four octets in decimal,
    with dots. *)
Definition IP4_String_dotted (ip : IP4) : string :=
  octet ip 24 +:+ "." +:+ octet ip 16 +:+ "." +:+ octet ip 8 +:+ "." +:+ octet ip 0.

(** Modelled from the spec: [net.ParseCIDR] is a library function outside
    the package; the address block of an entry is a CIDR, an address and a
    prefix length. The network it returns has the host bits cleared. *)
Definition ParseCIDR_dotted (s : string) : result IP4Net :=
  match splitOn "/" s with
  | [addr; len] =>
      ip ← ParseIP4_dotted addr;
      match parseDecimal 32 len with
      | Some l => Ok (mkIP4Net (Z.land ip (Z.shiftl (Z.ones l) (32 - l))) l)
      | None => Err (ErrLibrary "invalid CIDR address")
      end
  | _ => Err (ErrLibrary "invalid CIDR address")
  end.

(** Modelled from the spec: [json.RawMessage.MarshalJSON] is a library
    function outside the package; the backend data is an opaque serialized
    blob, which marshals to itself, and the nil blob to the JSON null. *)
Definition MarshalJSON_raw (m : RawMessage) : result string :=
  match m with
  | Some bytes => Ok bytes
  | None => Ok "null"
  end.

Definition dottedPackages : Packages :=
  mkPackages IP4Net ParseCIDR_dotted (fun n => n) IP4_String_dotted
             ParseIP4_dotted MarshalJSON_raw.

(** ** Entries and managers of the examples *)

Definition noReply : Clientset := mkClientset [] (fun _ => None).

(** The double quote, for JSON text. *)
Definition dq : string := String (Ascii.ascii_of_nat 34) "".

Definition vni (n : string) : string := "{" +:+ dq +:+ "VNI" +:+ dq +:+ ":" +:+ n +:+ "}".

Definition annotatedNode (name block : string) (a : list (string * string)) : Node :=
  mkNode (mkObjectMeta name ∅ (Some (list_to_map a))) (mkNodeSpec block).

(** The entry of the spec's scenario. *)
Definition node1 : Node :=
  annotatedNode "node-1" "10.1.0.0/24"
    [ (subnetKubeManagedAnnotation, "true");
      (backendTypeAnnotation, "vxlan");
      (backendDataAnnotation, vni "1");
      (backendPublicIPAnnotation, "10.0.0.5") ].

Definition ip_10_0_0_5 : IP4 := 167772165.
Definition net_10_1_0_0_24 : IP4Net := mkIP4Net 167837696 24.

Definition attrs1 : LeaseAttrs := mkLeaseAttrs ip_10_0_0_5 "vxlan" (Some (vni "1")).

Definition ksm1 : kubeSubnetManager :=
  mkKSM noReply "node-1" {[ "node-1" := node1 ]} [].

(** The lease [AcquireLease] returns for [attrs1] at [now]. *)
Definition lease1 (now : Time) : Lease := mkLease net_10_1_0_0_24 attrs1 (now + 86400000000000).

(** The entry with one more annotation, which is none of the manager's. *)
Definition node1_relabelled : Node :=
  annotatedNode "node-1" "10.1.0.0/24"
    [ (subnetKubeManagedAnnotation, "true");
      (backendTypeAnnotation, "vxlan");
      (backendDataAnnotation, vni "1");
      (backendPublicIPAnnotation, "10.0.0.5");
      ("example.com/rack", "r7") ].

(** The entry with other backend data. *)
Definition node1_vni2 : Node :=
  annotatedNode "node-1" "10.1.0.0/24"
    [ (subnetKubeManagedAnnotation, "true");
      (backendTypeAnnotation, "vxlan");
      (backendDataAnnotation, vni "2");
      (backendPublicIPAnnotation, "10.0.0.5") ].

Definition attrs2 : LeaseAttrs := mkLeaseAttrs ip_10_0_0_5 "vxlan" (Some (vni "2")).

(** The entry without the opt-in marker. *)
Definition node1_unmarked : Node :=
  annotatedNode "node-1" "10.1.0.0/24"
    [ (backendTypeAnnotation, "vxlan");
      (backendDataAnnotation, vni "1");
      (backendPublicIPAnnotation, "10.0.0.5") ].

(** The entry with its public IP annotation taken away. *)
Definition node1_without_ip : Node :=
  annotatedNode "node-1" "10.1.0.0/24"
    [ (subnetKubeManagedAnnotation, "true");
      (backendTypeAnnotation, "vxlan");
      (backendDataAnnotation, vni "1") ].

(** The entry before the allocator has given it an address block. *)
Definition node1_unassigned : Node :=
  annotatedNode "node-1" "" [ ("example.com/rack", "r7") ].

(** The entry before the manager has written to it. *)
Definition node1_fresh : Node :=
  annotatedNode "node-1" "10.1.0.0/24" [ ("example.com/rack", "r7") ].

(** The same with a public IP override, 192.0.2.7. *)
Definition node1_override : Node :=
  annotatedNode "node-1" "10.1.0.0/24"
    [ ("example.com/rack", "r7");
      (backendPublicIPOverwriteAnnotation, "192.0.2.7") ].

(** The manager of node-1 with [n] as its cached entry, a client that has
    received nothing and accepts every patch, and an empty channel. *)
Definition ksmOf (n : Node) : kubeSubnetManager :=
  mkKSM noReply "node-1" {[ "node-1" := n ]} [].

Definition event1 : Event := mkEvent EventAdded (mkLease net_10_1_0_0_24 attrs1 0).

(** The same manager with one event waiting in the channel. *)
Definition ksm1_event : kubeSubnetManager :=
  mkKSM noReply "node-1" {[ "node-1" := node1 ]} [event1].

(** The patch that writes the four annotations of [attrs1] with [ip] as the
    public IP. *)
Definition patch1 (ip : string) : Patch :=
  mkPatch None ∅
    (list_to_map
       [ (subnetKubeManagedAnnotation, Some "true");
         (backendTypeAnnotation, Some "vxlan");
         (backendDataAnnotation, Some (vni "1"));
         (backendPublicIPAnnotation, Some ip) ])
    None.

Definition statusPatch (p : Patch) : PatchCall :=
  mkPatchCall "node-1" StrategicMergePatchType p ["status"].

(** * Properties *)

(** ** The scenario of the spec, run *)

Example nodeToLease_node1 :
  nodeToLease (pkgs := dottedPackages) node1
  = Ok (mkLease net_10_1_0_0_24 attrs1 0).
Proof. vm_compute. reflexivity. Qed.

Example IP4_String_10_0_0_5 : IP4_String_dotted ip_10_0_0_5 = "10.0.0.5".
Proof. vm_compute. reflexivity. Qed.

Example ParseIP4_empty :
  ParseIP4_dotted "" = Err (ErrLibrary "Invalid IP address format").
Proof. vm_compute. reflexivity. Qed.

Example AddFunc_node1 :
  AddFunc (pkgs := dottedPackages) (ObjNode node1) ksm1
  = (Ok tt, mkKSM noReply "node-1" {[ "node-1" := node1 ]}
                   [mkEvent EventAdded (mkLease net_10_1_0_0_24 attrs1 0)]).
Proof. vm_compute. reflexivity. Qed.

Example AcquireLease_node1 :
  AcquireLease (pkgs := dottedPackages) 1000 attrs1 ksm1
  = (Ok (mkLease net_10_1_0_0_24 attrs1 86400000001000), ksm1).
Proof. vm_compute. reflexivity. Qed.

(** ** The event handlers *)

Section Handlers.
Context {pkgs : Packages}.

Lemma notManaged_iff (n : Node) :
  notManaged n = true
  <-> mapIndex2 (Annotations (Meta n)) subnetKubeManagedAnnotation ≠ Some "true".
Proof.
  unfold notManaged.
  destruct (mapIndex2 _ _) as [s|]; [|by split].
  rewrite bool_decide_eq_true. split; congruence.
Qed.

Lemma handleAddLeaseEvent_unmanaged (et : EventType) (n : Node) (ksm : kubeSubnetManager) :
  notManaged n = true -> handleAddLeaseEvent et (ObjNode n) ksm = (Ok tt, ksm).
Proof.
  intros Hn. unfold handleAddLeaseEvent, mbind, M_bind. simpl. by rewrite Hn.
Qed.

Lemma handleUpdateLeaseEvent_unmanaged (o n : Node) (ksm : kubeSubnetManager) :
  notManaged n = true -> handleUpdateLeaseEvent (ObjNode o) (ObjNode n) ksm = (Ok tt, ksm).
Proof.
  intros Hn. unfold handleUpdateLeaseEvent, mbind, M_bind. simpl. by rewrite Hn.
Qed.

Lemma handleUpdateLeaseEvent_managed (o n : Node) (ksm : kubeSubnetManager) :
  notManaged n = false ->
  handleUpdateLeaseEvent (ObjNode o) (ObjNode n) ksm
  = if bool_decide (annotation o backendDataAnnotation = annotation n backendDataAnnotation)
       && bool_decide (annotation o backendTypeAnnotation = annotation n backendTypeAnnotation)
       && bool_decide (annotation o backendPublicIPAnnotation
                       = annotation n backendPublicIPAnnotation)
    then (Ok tt, ksm)
    else match nodeToLease n with
         | Ok l => chanSend (mkEvent EventAdded l) ksm
         | Err _ => (Ok tt, ksm)
         | Panic => (Panic, ksm)
         | Blocked => (Blocked, ksm)
         end.
Proof.
  intros Hn. unfold handleUpdateLeaseEvent, mbind, M_bind. simpl. rewrite Hn.
  destruct (_ && _); [done|]. by destruct (nodeToLease n).
Qed.

Lemma chanSend_room (e : Event) (ksm : kubeSubnetManager) :
  (length (events ksm) < eventsCap)%nat ->
  chanSend e ksm
  = (Ok tt, mkKSM (client ksm) (nodeName ksm) (nodeStore ksm) (events ksm ++ [e])).
Proof. intros Hroom. unfold chanSend. by rewrite decide_True. Qed.

(** C2: a notification about an entry that lacks the opt-in marker, or
    whose marker is anything but the string true, leaves the manager as it
    was, whether it is an add, a delete or an update to that entry: no event
    enters the channel, whatever else the entry carries. *)
Theorem unmanaged_entry_no_event (n : Node) (ksm : kubeSubnetManager) :
  mapIndex2 (Annotations (Meta n)) subnetKubeManagedAnnotation ≠ Some "true" ->
  AddFunc (ObjNode n) ksm = (Ok tt, ksm)
  /\ DeleteFunc (ObjNode n) ksm = (Ok tt, ksm)
  /\ forall o : Node, UpdateFunc (ObjNode o) (ObjNode n) ksm = (Ok tt, ksm).
Proof.
  intros Hn%notManaged_iff. unfold AddFunc, DeleteFunc, UpdateFunc.
  split; [|split; [|intros o]];
    auto using handleAddLeaseEvent_unmanaged, handleUpdateLeaseEvent_unmanaged.
Qed.

(** C10: an update whose new entry is not opted in puts no event of any
    type in the channel, whatever the old entry, so also when the old entry
    was opted in; in particular no Removed event tells the consumers that
    the entry left the managed set. *)
Theorem update_dropping_marker_no_event (o n : Node) (ksm : kubeSubnetManager) :
  mapIndex2 (Annotations (Meta n)) subnetKubeManagedAnnotation ≠ Some "true" ->
  let after := (UpdateFunc (ObjNode o) (ObjNode n) ksm).2 in
  UpdateFunc (ObjNode o) (ObjNode n) ksm = (Ok tt, ksm)
  /\ events after = events ksm
  /\ forall l : Lease, events after ≠ (events ksm ++ [mkEvent EventRemoved l])%list.
Proof.
  intros Hn%notManaged_iff. cbv zeta. unfold UpdateFunc.
  rewrite handleUpdateLeaseEvent_unmanaged by done. simpl.
  split; [done|]. split; [done|].
  intros l Heq. apply (f_equal length) in Heq. rewrite length_app in Heq.
  simpl in Heq. lia.
Qed.

Lemma triplet_changed (o n : Node) :
  ~ (annotation o backendDataAnnotation = annotation n backendDataAnnotation
     /\ annotation o backendTypeAnnotation = annotation n backendTypeAnnotation
     /\ annotation o backendPublicIPAnnotation = annotation n backendPublicIPAnnotation) ->
  bool_decide (annotation o backendDataAnnotation = annotation n backendDataAnnotation)
  && bool_decide (annotation o backendTypeAnnotation = annotation n backendTypeAnnotation)
  && bool_decide (annotation o backendPublicIPAnnotation = annotation n backendPublicIPAnnotation)
  = false.
Proof.
  intros Hdiff. apply not_true_is_false. intros Hb.
  apply andb_prop in Hb as [Hb Hp]. apply andb_prop in Hb as [Hd Ht].
  apply Hdiff. by rewrite !bool_decide_eq_true in Hd, Ht, Hp.
Qed.

(** C3, as the code has it: on an update to an opted-in entry, when the
    backend data, the backend type and the public IP are the same in the old
    and the new entry nothing is sent, whatever else changed. When one of
    them differs and the new entry translates to a lease, the handler does
    exactly one send, of an Added event with that lease, which enters the
    channel as soon as it has room; when the translation fails with an
    error the notification is dropped and nothing is sent. *)
Theorem update_event (o n : Node) (ksm : kubeSubnetManager) :
  notManaged n = false ->
  let same :=
    annotation o backendDataAnnotation = annotation n backendDataAnnotation
    /\ annotation o backendTypeAnnotation = annotation n backendTypeAnnotation
    /\ annotation o backendPublicIPAnnotation = annotation n backendPublicIPAnnotation in
  (same -> UpdateFunc (ObjNode o) (ObjNode n) ksm = (Ok tt, ksm))
  /\ (~ same -> forall l : Lease, nodeToLease n = Ok l ->
      UpdateFunc (ObjNode o) (ObjNode n) ksm = chanSend (mkEvent EventAdded l) ksm
      /\ ((length (events ksm) < eventsCap)%nat ->
          UpdateFunc (ObjNode o) (ObjNode n) ksm
          = (Ok tt, mkKSM (client ksm) (nodeName ksm) (nodeStore ksm)
                          (events ksm ++ [mkEvent EventAdded l]))))
  /\ (~ same -> forall e : error, nodeToLease n = Err e ->
      UpdateFunc (ObjNode o) (ObjNode n) ksm = (Ok tt, ksm)).
Proof.
  intros Hn same. unfold UpdateFunc.
  rewrite handleUpdateLeaseEvent_managed by done.
  split; [|split].
  - intros (Hd & Ht & Hp).
    by rewrite !bool_decide_eq_true_2.
  - intros Hdiff l Hl.
    rewrite triplet_changed by done.
    rewrite Hl. simpl. split; [done|]. apply chanSend_room.
  - intros Hdiff e He.
    rewrite triplet_changed by done.
    by rewrite He.
Qed.

End Handlers.

(** ** Waiting for an event *)

Section Watch.

(** C7, as the code has it: when the context is done and the channel holds
    no event, the call returns an empty result and no error; when the channel
    holds an event and the context is not done, it returns exactly the oldest
    event, which leaves the channel; when both hold, the select takes either
    case, and the call returns the one or the other. *)
Theorem WatchLeases_select (pick : selectCase) (ksm : kubeSubnetManager) :
  (events ksm = [] ->
   WatchLeases pick true ksm = (Ok (mkLeaseWatchResult [] []), ksm))
  /\ (forall (event : Event) (rest : list Event), events ksm = event :: rest ->
      WatchLeases pick false ksm
      = (Ok (mkLeaseWatchResult [event] []),
         mkKSM (client ksm) (nodeName ksm) (nodeStore ksm) rest)
      /\ WatchLeases caseEvent true ksm
         = (Ok (mkLeaseWatchResult [event] []),
            mkKSM (client ksm) (nodeName ksm) (nodeStore ksm) rest)
      /\ WatchLeases caseDone true ksm = (Ok (mkLeaseWatchResult [] []), ksm)).
Proof.
  unfold WatchLeases. split.
  - by intros ->.
  - by intros event rest ->.
Qed.

End Watch.

(** ** Patches *)

Section Patches.

Lemma lookup_diffMap (old new : gmap string string) (k : string) :
  diffMap old new !! k
  = match new !! k with
    | Some v => if decide (old !! k = Some v) then None else Some (Some v)
    | None => match old !! k with Some _ => Some None | None => None end
    end.
Proof.
  unfold diffMap. rewrite lookup_merge.
  by destruct (old !! k), (new !! k).
Qed.

Lemma diffMap_same (m : gmap string string) : diffMap m m = ∅.
Proof.
  apply map_eq. intros k. rewrite lookup_diffMap, lookup_empty.
  destruct (m !! k); [by rewrite decide_True|done].
Qed.

Lemma diffField_same (x : string) : diffField x x = None.
Proof. unfold diffField. by rewrite decide_True. Qed.

Lemma lookup_applyPatchMap (p : gmap string (option string)) (m : gmap string string)
      (k : string) :
  applyPatchMap p m !! k
  = match p !! k with
    | Some (Some v) => Some v
    | Some None => None
    | None => m !! k
    end.
Proof.
  unfold applyPatchMap. rewrite lookup_merge.
  by destruct (p !! k) as [[v|]|], (m !! k).
Qed.

(** Applied to the old map, the difference gives the new one. *)
Lemma applyPatchMap_diffMap (old new : gmap string string) :
  applyPatchMap (diffMap old new) old = new.
Proof.
  apply map_eq. intros k. rewrite lookup_applyPatchMap, lookup_diffMap.
  destruct (new !! k) as [v|] eqn:Hnew.
  - by case_decide.
  - by destruct (old !! k).
Qed.

Lemma applyPatchMap_empty (m : gmap string string) : applyPatchMap ∅ m = m.
Proof.
  apply map_eq. intros k. by rewrite lookup_applyPatchMap, lookup_empty.
Qed.

End Patches.

(** ** Acquiring the lease *)

Section Acquire.
Context {pkgs : Packages}.

Ltac keys :=
  unfold subnetKubeManagedAnnotation, backendDataAnnotation, backendTypeAnnotation,
    backendPublicIPAnnotation, backendPublicIPOverwriteAnnotation in *.

Lemma annotateNode_nil (n : Node) (bd : string) (attrs : LeaseAttrs) :
  Annotations (Meta n) = None -> annotateNode n bd attrs = Panic.
Proof.
  intros Hnil. unfold annotateNode, setAnnotation. by rewrite Hnil.
Qed.

Lemma annotateNode_map (n : Node) (bd : string) (attrs : LeaseAttrs)
      (a : gmap string string) :
  Annotations (Meta n) = Some a ->
  exists a' : gmap string string,
    annotateNode n bd attrs
    = Ok (mkNode (mkObjectMeta (Name (Meta n)) (Labels (Meta n)) (Some a')) (Spec n))
    /\ a' !! backendTypeAnnotation = Some (BackendType attrs)
    /\ a' !! backendDataAnnotation = Some bd
    /\ a' !! subnetKubeManagedAnnotation = Some "true"
    /\ a' !! backendPublicIPAnnotation
       = Some (if decide (annotation n backendPublicIPOverwriteAnnotation = "")
               then IP4_String (PublicIP attrs)
               else annotation n backendPublicIPOverwriteAnnotation)
    /\ forall k : string, k ∉ leaseKeys -> a' !! k = a !! k.
Proof.
  destruct n as [[name labels ann] spec]. simpl. intros ->.
  unfold annotateNode, setAnnotation, annotation, mapIndex, mapIndex2. simpl.
  assert (forall (m : gmap string string) k, k ∉ leaseKeys -> forall k' v, k' ∈ leaseKeys ->
            <[k' := v]> m !! k = m !! k) as Hframe.
  { intros m k Hk k' v Hk'. apply lookup_insert_ne. intros ->. done. }
  rewrite !lookup_insert_ne by (keys; discriminate).
  destruct (a !! backendPublicIPOverwriteAnnotation) as [over|] eqn:Hover; simpl;
    [destruct (decide (over = "")) as [->|Hne];
     [rewrite bool_decide_eq_false_2 by naive_solver
     |rewrite bool_decide_eq_true_2 by done; case_bool_decide as Hpub]
    |idtac];
    simpl; (eexists; split; [reflexivity|]); repeat split;
    try (rewrite ?lookup_insert_ne by (keys; discriminate); by apply lookup_insert_eq);
    try (intros k Hk; rewrite !Hframe; [done|..]; try done; unfold leaseKeys; set_solver).
  (* the public IP is the override already: it is not assigned again *)
  rewrite !lookup_insert_ne by (keys; discriminate).
  destruct (a !! backendPublicIPAnnotation) as [p|]; simpl in *; congruence.
Qed.

Ltac run :=
  unfold AcquireLease, mbind, M_bind, gets, nodeStore_Get, DeepCopy, mret, M_ret,
    fail, lift, client_Patch, CreateTwoWayMergePatch; simpl.

Lemma AcquireLease_unassigned (ksm : kubeSubnetManager) (now : Time) (attrs : LeaseAttrs)
      (n : Node) :
  nodeStore ksm !! nodeName ksm = Some n ->
  PodCIDR (Spec n) = "" ->
  AcquireLease now attrs ksm = (Err (ErrPodCIDRNotAssigned (nodeName ksm)), ksm).
Proof. intros Hn Hcidr. run. rewrite Hn. simpl. by rewrite decide_True. Qed.

Lemma AcquireLease_current (ksm : kubeSubnetManager) (now : Time) (attrs : LeaseAttrs)
      (n : Node) (bd : string) (cidr : IPNet) :
  nodeStore ksm !! nodeName ksm = Some n ->
  PodCIDR (Spec n) ≠ "" ->
  RawMessage_MarshalJSON (BackendData attrs) = Ok bd ->
  net_ParseCIDR (PodCIDR (Spec n)) = Ok cidr ->
  leaseChanged n bd attrs = false ->
  AcquireLease now attrs ksm = (Ok (acquired now attrs cidr), ksm).
Proof.
  intros Hn Hassigned Hbd Hcidr Hsame. run.
  rewrite Hn. simpl. rewrite decide_False by done.
  rewrite Hbd, Hcidr, Hsame. reflexivity.
Qed.

Lemma AcquireLease_write (ksm : kubeSubnetManager) (now : Time) (attrs : LeaseAttrs)
      (n n' : Node) (bd : string) (cidr : IPNet) :
  nodeStore ksm !! nodeName ksm = Some n ->
  PodCIDR (Spec n) ≠ "" ->
  RawMessage_MarshalJSON (BackendData attrs) = Ok bd ->
  net_ParseCIDR (PodCIDR (Spec n)) = Ok cidr ->
  leaseChanged n bd attrs = true ->
  annotateNode n bd attrs = Ok n' ->
  AcquireLease now attrs ksm
  = (match patchReply (client ksm) (patchCall ksm n n') with
     | None => Ok (acquired now attrs cidr)
     | Some e => Err e
     end, received (patchCall ksm n n') ksm).
Proof.
  intros Hn Hassigned Hbd Hcidr Hchanged Hn'. run.
  rewrite Hn. simpl. rewrite decide_False by done.
  rewrite Hbd, Hcidr, Hchanged, Hn'. unfold patchCall.
  by destruct (patchReply _ _).
Qed.

(** Whatever the outcome, the manager is as it was or its client has
    received the one patch call of the write. *)
Lemma AcquireLease_state (ksm : kubeSubnetManager) (now : Time) (attrs : LeaseAttrs) :
  (AcquireLease now attrs ksm).2 = ksm
  \/ exists (n n' : Node) (bd : string),
      nodeStore ksm !! nodeName ksm = Some n
      /\ RawMessage_MarshalJSON (BackendData attrs) = Ok bd
      /\ leaseChanged n bd attrs = true
      /\ annotateNode n bd attrs = Ok n'
      /\ (AcquireLease now attrs ksm).2 = received (patchCall ksm n n') ksm.
Proof.
  destruct (nodeStore ksm !! nodeName ksm) as [n|] eqn:Hn;
    [|left; run; by rewrite Hn].
  destruct (decide (PodCIDR (Spec n) = "")) as [Hcidr|Hcidr];
    [left; by erewrite AcquireLease_unassigned|].
  destruct (RawMessage_MarshalJSON (BackendData attrs)) as [bd| | |] eqn:Hbd;
    try (left; run; rewrite Hn; simpl; rewrite decide_False by done; by rewrite Hbd).
  destruct (net_ParseCIDR (PodCIDR (Spec n))) as [cidr| | |] eqn:Hparse;
    try (left; run; rewrite Hn; simpl; rewrite decide_False by done;
         by rewrite Hbd, Hparse).
  destruct (leaseChanged n bd attrs) eqn:Hchanged;
    [|left; by erewrite AcquireLease_current].
  destruct (annotateNode n bd attrs) as [n'| | |] eqn:Hn';
    try (left; run; rewrite Hn; simpl; rewrite decide_False by done;
         by rewrite Hbd, Hparse, Hchanged, Hn').
  right. exists n, n', bd. repeat split; try done.
  by erewrite AcquireLease_write.
Qed.

(** A call that returns a lease found the entry with an address block that
    parses, and built the lease from the block, the caller's attributes and
    the time. *)
Lemma AcquireLease_Ok (ksm ksm' : kubeSubnetManager) (now : Time) (attrs : LeaseAttrs)
      (l : Lease) :
  AcquireLease now attrs ksm = (Ok l, ksm') ->
  exists (n : Node) (cidr : IPNet),
    nodeStore ksm !! nodeName ksm = Some n
    /\ PodCIDR (Spec n) ≠ ""
    /\ net_ParseCIDR (PodCIDR (Spec n)) = Ok cidr
    /\ l = acquired now attrs cidr.
Proof.
  destruct (nodeStore ksm !! nodeName ksm) as [n|] eqn:Hn;
    [|run; by rewrite Hn].
  destruct (decide (PodCIDR (Spec n) = "")) as [Hcidr|Hcidr];
    [by erewrite AcquireLease_unassigned|].
  destruct (RawMessage_MarshalJSON (BackendData attrs)) as [bd| | |] eqn:Hbd;
    try (run; rewrite Hn; simpl; rewrite decide_False by done; by rewrite Hbd).
  destruct (net_ParseCIDR (PodCIDR (Spec n))) as [cidr| | |] eqn:Hparse;
    try (run; rewrite Hn; simpl; rewrite decide_False by done;
         by rewrite Hbd, Hparse).
  intros Hrun. exists n, cidr. repeat split; try done.
  destruct (leaseChanged n bd attrs) eqn:Hchanged.
  - destruct (annotateNode n bd attrs) as [n'| | |] eqn:Hn';
      try (revert Hrun; run; rewrite Hn; simpl; rewrite decide_False by done;
           by rewrite Hbd, Hparse, Hchanged, Hn').
    erewrite AcquireLease_write in Hrun by done.
    destruct (patchReply _ _); congruence.
  - erewrite AcquireLease_current in Hrun by done. congruence.
Qed.

Lemma annotateNode_Ok (n n' : Node) (bd : string) (attrs : LeaseAttrs) :
  annotateNode n bd attrs = Ok n' ->
  exists a a' : gmap string string,
    Annotations (Meta n) = Some a
    /\ n' = mkNode (mkObjectMeta (Name (Meta n)) (Labels (Meta n)) (Some a')) (Spec n)
    /\ a' !! backendTypeAnnotation = Some (BackendType attrs)
    /\ a' !! backendDataAnnotation = Some bd
    /\ a' !! subnetKubeManagedAnnotation = Some "true"
    /\ a' !! backendPublicIPAnnotation
       = Some (if decide (annotation n backendPublicIPOverwriteAnnotation = "")
               then IP4_String (PublicIP attrs)
               else annotation n backendPublicIPOverwriteAnnotation)
    /\ forall k : string, k ∉ leaseKeys -> a' !! k = a !! k.
Proof.
  intros Hn'. destruct (Annotations (Meta n)) as [a|] eqn:Ha.
  - destruct (annotateNode_map n bd attrs a Ha) as (a' & Hrun & Hrest).
    exists a, a'. split; [done|]. split; [congruence|done].
  - rewrite annotateNode_nil in Hn' by done. discriminate.
Qed.

(** The one call a writing [AcquireLease] has made. *)
Lemma AcquireLease_wrote (ksm : kubeSubnetManager) (now : Time) (attrs : LeaseAttrs)
      (call : PatchCall) :
  patchCalls (client (AcquireLease now attrs ksm).2)
  = (patchCalls (client ksm) ++ [call])%list ->
  exists (n n' : Node) (bd : string),
    nodeStore ksm !! nodeName ksm = Some n
    /\ RawMessage_MarshalJSON (BackendData attrs) = Ok bd
    /\ leaseChanged n bd attrs = true
    /\ annotateNode n bd attrs = Ok n'
    /\ call = patchCall ksm n n'
    /\ (AcquireLease now attrs ksm).2 = received call ksm.
Proof.
  intros Hcalls.
  destruct (AcquireLease_state ksm now attrs)
    as [Hsame|(n & n' & bd & Hn & Hbd & Hchanged & Hn' & Hafter)].
  - rewrite Hsame in Hcalls. apply (f_equal length) in Hcalls.
    rewrite length_app in Hcalls. simpl in Hcalls. lia.
  - rewrite Hafter in Hcalls. simpl in Hcalls.
    apply app_inj_tail in Hcalls as [_ <-].
    by exists n, n', bd.
Qed.

Lemma leaseChanged_false (n : Node) (bd : string) (attrs : LeaseAttrs) :
  leaseChanged n bd attrs = false
  <-> annotation n backendDataAnnotation = bd
      /\ annotation n backendTypeAnnotation = BackendType attrs
      /\ annotation n backendPublicIPAnnotation = IP4_String (PublicIP attrs)
      /\ annotation n subnetKubeManagedAnnotation = "true"
      /\ (annotation n backendPublicIPOverwriteAnnotation = ""
          \/ annotation n backendPublicIPOverwriteAnnotation = IP4_String (PublicIP attrs)).
Proof.
  unfold leaseChanged.
  rewrite !orb_false_iff, andb_false_iff, !bool_decide_eq_false.
  split.
  - intros ((((Hd & Ht) & Hp) & Hm) & Ho).
    repeat split; try by apply dec_stable.
    destruct Ho as [Ho|Ho]; [left|right]; by apply dec_stable.
  - intros (Hd & Ht & Hp & Hm & Ho).
    repeat split; try (intros Hc; by apply Hc).
    destruct Ho as [Ho|Ho]; [left|right]; intros Hc; by apply Hc.
Qed.

(** The annotations of the entry once the directory has applied the patch
    of a call to it. *)
Lemma annotation_applyPatch (p : Patch) (n : Node) (k : string) :
  annotation (applyPatch p n) k
  = match patchAnnotations p !! k with
    | Some (Some v) => v
    | Some None => ""
    | None => annotation n k
    end.
Proof.
  unfold annotation, mapIndex, mapIndex2, applyPatch. simpl.
  rewrite lookup_applyPatchMap.
  destruct (patchAnnotations p !! k) as [[v|]|]; try done.
  by destruct (Annotations (Meta n)).
Qed.

(** C6: when the cached entry of the local node has no address block, the
    call returns the error that the pod CIDR is not assigned, and the manager
    with its client is as before: no patch call was made. *)
Theorem AcquireLease_pod_cidr_not_assigned
        (ksm : kubeSubnetManager) (now : Time) (attrs : LeaseAttrs) (n : Node) :
  nodeStore ksm !! nodeName ksm = Some n ->
  PodCIDR (Spec n) = "" ->
  AcquireLease now attrs ksm = (Err (ErrPodCIDRNotAssigned (nodeName ksm)), ksm)
  /\ patchCalls (client (AcquireLease now attrs ksm).2) = patchCalls (client ksm).
Proof.
  intros Hn Hcidr. by rewrite (AcquireLease_unassigned ksm now attrs n).
Qed.

(** C5: the lease of a call that succeeds has the subnet parsed from the
    address block of the cached entry, exactly the attributes the caller
    passed, and an expiration 24 hours after the time read. *)
Theorem AcquireLease_lease
        (ksm ksm' : kubeSubnetManager) (now : Time) (attrs : LeaseAttrs) (l : Lease) :
  AcquireLease now attrs ksm = (Ok l, ksm') ->
  exists (n : Node) (cidr : IPNet),
    nodeStore ksm !! nodeName ksm = Some n
    /\ net_ParseCIDR (PodCIDR (Spec n)) = Ok cidr
    /\ Subnet l = ip_FromIPNet cidr
    /\ Attrs l = attrs
    /\ Expiration l = now + 24 * 3600 * 1000000000.
Proof.
  intros (n & cidr & Hn & _ & Hcidr & ->)%AcquireLease_Ok.
  by exists n, cidr.
Qed.

(** With an override the entry that the patch leaves has the override as
    its public IP. *)
Lemma override_patch
      (ksm : kubeSubnetManager) (now : Time) (attrs : LeaseAttrs) (n : Node) (V : string)
      (call : PatchCall) :
  nodeStore ksm !! nodeName ksm = Some n ->
  annotation n backendPublicIPOverwriteAnnotation = V ->
  V ≠ "" ->
  V ≠ IP4_String (PublicIP attrs) ->
  patchCalls (client (AcquireLease now attrs ksm).2)
  = (patchCalls (client ksm) ++ [call])%list ->
  let written := patchAnnotations (call_patch call) !! backendPublicIPAnnotation in
  annotation (applyPatch (call_patch call) n) backendPublicIPAnnotation = V
  /\ written ≠ Some (Some (IP4_String (PublicIP attrs)))
  /\ (written = Some (Some V)
      \/ written = None /\ annotation n backendPublicIPAnnotation = V).
Proof.
  intros Hn HV Hnonempty Hdiffers
         (n0 & n' & bd & Hn0 & Hbd & Hchanged & Hn' & -> & _)%AcquireLease_wrote.
  assert (n0 = n) as -> by congruence.
  apply annotateNode_Ok in Hn' as (a & a' & Ha & -> & _ & _ & _ & Hpub & _).
  rewrite HV, decide_False in Hpub by done.
  cbv zeta. rewrite annotation_applyPatch. simpl. rewrite Ha. simpl.
  rewrite lookup_diffMap, Hpub.
  case_decide as Hold.
  - split; [|split; [done|right; split; [done|]]];
      by unfold annotation, mapIndex, mapIndex2; rewrite Ha; simpl; rewrite Hold.
  - split; [done|]. split; [congruence|by left].
Qed.

(** With an override that differs from the public IP asked for, a call
    that gets as far as the comparison writes. *)
Lemma override_writes
      (ksm : kubeSubnetManager) (now : Time) (attrs : LeaseAttrs) (n : Node) (V : string)
      (bd : string) (cidr : IPNet) :
  nodeStore ksm !! nodeName ksm = Some n ->
  annotation n backendPublicIPOverwriteAnnotation = V ->
  V ≠ "" ->
  V ≠ IP4_String (PublicIP attrs) ->
  PodCIDR (Spec n) ≠ "" ->
  RawMessage_MarshalJSON (BackendData attrs) = Ok bd ->
  net_ParseCIDR (PodCIDR (Spec n)) = Ok cidr ->
  exists call : PatchCall,
    patchCalls (client (AcquireLease now attrs ksm).2)
    = (patchCalls (client ksm) ++ [call])%list.
Proof.
  intros Hn HV Hnonempty Hdiffers Hcidr Hbd Hparse.
  assert (leaseChanged n bd attrs = true) as Hchanged.
  { unfold leaseChanged. rewrite HV.
    rewrite (bool_decide_eq_true_2 (V ≠ "")) by done.
    rewrite (bool_decide_eq_true_2 (V ≠ IP4_String (PublicIP attrs))) by done.
    simpl. by rewrite orb_true_r. }
  destruct (Annotations (Meta n)) as [a|] eqn:Ha.
  - destruct (annotateNode_map n bd attrs a Ha) as (a' & Hn' & _).
    eexists. by erewrite AcquireLease_write.
  - exfalso. apply Hnonempty. rewrite <- HV.
    unfold annotation, mapIndex, mapIndex2. by rewrite Ha.
Qed.

(** C4: when the cached entry carries a non-empty override [V] that differs
    from the public IP of the attributes, the entry the write leaves in the
    directory has [V] as its public IP annotation: the patch sets the
    annotation to [V], or leaves it alone where the entry has [V] already,
    and never sets it to the public IP of the attributes. Such a call writes
    whenever the address block is assigned and parses and the backend data
    marshals. *)
Theorem override_precedence
        (ksm : kubeSubnetManager) (now : Time) (attrs : LeaseAttrs) (n : Node) (V : string) :
  nodeStore ksm !! nodeName ksm = Some n ->
  annotation n backendPublicIPOverwriteAnnotation = V ->
  V ≠ "" ->
  V ≠ IP4_String (PublicIP attrs) ->
  let after := (AcquireLease now attrs ksm).2 in
  (forall call : PatchCall,
      patchCalls (client after) = (patchCalls (client ksm) ++ [call])%list ->
      let written := patchAnnotations (call_patch call) !! backendPublicIPAnnotation in
      annotation (applyPatch (call_patch call) n) backendPublicIPAnnotation = V
      /\ written ≠ Some (Some (IP4_String (PublicIP attrs)))
      /\ (written = Some (Some V)
          \/ written = None /\ annotation n backendPublicIPAnnotation = V))
  /\ (PodCIDR (Spec n) ≠ "" ->
      (exists bd, RawMessage_MarshalJSON (BackendData attrs) = Ok bd) ->
      (exists cidr, net_ParseCIDR (PodCIDR (Spec n)) = Ok cidr) ->
      exists call : PatchCall,
        patchCalls (client after) = (patchCalls (client ksm) ++ [call])%list).
Proof.
  intros Hn HV Hnonempty Hdiffers after. subst after. split.
  - intros call Hcall. by apply (override_patch ksm now).
  - intros Hcidr [bd Hbd] [cidr Hparse]. by eapply override_writes.
Qed.

(** C9: when the cached entry carries a non-empty override that differs
    from the public IP of the attributes, a call that succeeds returns a
    lease with the public IP of the attributes, while the entry its one patch
    leaves in the directory has the override as public IP annotation: the
    public IP of the lease returned is not the annotation just written. *)
Theorem lease_differs_from_written_annotation
        (ksm ksm' : kubeSubnetManager) (now : Time) (attrs : LeaseAttrs) (l : Lease)
        (n : Node) (V : string) :
  nodeStore ksm !! nodeName ksm = Some n ->
  annotation n backendPublicIPOverwriteAnnotation = V ->
  V ≠ "" ->
  V ≠ IP4_String (PublicIP attrs) ->
  AcquireLease now attrs ksm = (Ok l, ksm') ->
  PublicIP (Attrs l) = PublicIP attrs
  /\ exists call : PatchCall,
      ksm' = received call ksm
      /\ annotation (applyPatch (call_patch call) n) backendPublicIPAnnotation = V
      /\ annotation (applyPatch (call_patch call) n) backendPublicIPAnnotation
         ≠ IP4_String (PublicIP (Attrs l)).
Proof.
  intros Hn HV Hnonempty Hdiffers Hrun.
  destruct (AcquireLease_Ok _ _ _ _ _ Hrun) as (n0 & cidr & Hn0 & Hcidr & Hparse & ->).
  assert (n0 = n) as -> by congruence.
  split; [done|].
  destruct (RawMessage_MarshalJSON (BackendData attrs)) as [bd| | |] eqn:Hbd;
    try (revert Hrun; run; rewrite Hn; simpl; rewrite decide_False by done;
         by rewrite Hbd).
  destruct (override_writes ksm now attrs n V bd cidr) as [call Hcall]; try done.
  destruct (override_patch ksm now attrs n V call) as (Hpub & _); try done.
  exists call.
  apply AcquireLease_wrote in Hcall as (_ & _ & _ & _ & _ & _ & _ & _ & Hafter).
  rewrite Hrun in Hafter. simpl in Hafter.
  split; [done|]. split; [done|]. simpl. congruence.
Qed.

Lemma leaseKeys_assigned (a' : gmap string string) (bt bd ip : string) (k : string) :
  a' !! backendTypeAnnotation = Some bt ->
  a' !! backendDataAnnotation = Some bd ->
  a' !! subnetKubeManagedAnnotation = Some "true" ->
  a' !! backendPublicIPAnnotation = Some ip ->
  k ∈ leaseKeys -> is_Some (a' !! k).
Proof.
  intros Ht Hd Hm Hp Hk. unfold leaseKeys in Hk.
  repeat (apply elem_of_cons in Hk as [->|Hk]; [by eexists|]).
  by apply elem_of_nil in Hk.
Qed.

(** C8: a call that writes sends the difference between the cached entry
    and its annotated copy, which has the name, the labels, the address
    block and every annotation but backend type, backend data, public IP
    and opt-in marker of the cached entry. So the patch names only annotation
    keys among those four, and gives each a value; it does not name the
    override annotation, nor the name, the labels or the address block.
    Applied to any entry it leaves those and every other annotation as they
    were. *)
Theorem patch_frame
        (ksm : kubeSubnetManager) (now : Time) (attrs : LeaseAttrs) (call : PatchCall) :
  patchCalls (client (AcquireLease now attrs ksm).2)
  = (patchCalls (client ksm) ++ [call])%list ->
  let p := call_patch call in
  call_name call = nodeName ksm
  /\ (exists (n n' : Node) (bd : string),
        nodeStore ksm !! nodeName ksm = Some n
        /\ annotateNode n bd attrs = Ok n'
        /\ CreateTwoWayMergePatch n n' = Ok p
        /\ Name (Meta n') = Name (Meta n)
        /\ Labels (Meta n') = Labels (Meta n)
        /\ Spec n' = Spec n
        /\ forall k : string, k ∉ leaseKeys -> annotation n' k = annotation n k)
  /\ (forall (k : string) (v : option string),
        patchAnnotations p !! k = Some v -> k ∈ leaseKeys /\ v ≠ None)
  /\ patchAnnotations p !! backendPublicIPOverwriteAnnotation = None
  /\ patchName p = None /\ patchLabels p = ∅ /\ patchPodCIDR p = None
  /\ forall m : Node,
      Name (Meta (applyPatch p m)) = Name (Meta m)
      /\ Labels (Meta (applyPatch p m)) = Labels (Meta m)
      /\ Spec (applyPatch p m) = Spec m
      /\ forall k : string, k ∉ leaseKeys ->
         annotation (applyPatch p m) k = annotation m k.
Proof.
  intros (n & n' & bd & Hn & Hbd & Hchanged & Hn' & -> & _)%AcquireLease_wrote.
  pose proof Hn' as (a & a' & Ha & -> & Ht & Hd & Hm & Hp & Hframe)%annotateNode_Ok.
  cbv zeta. split; [done|]. split.
  { exists n, (mkNode (mkObjectMeta (Name (Meta n)) (Labels (Meta n)) (Some a')) (Spec n)), bd.
    repeat split; try done.
    intros k Hk. unfold annotation, mapIndex, mapIndex2. simpl.
    by rewrite Ha, (Hframe k Hk). }
  simpl. rewrite Ha. simpl.
  assert (forall (k : string) (v : option string),
            diffMap a a' !! k = Some v -> k ∈ leaseKeys /\ v ≠ None) as Hkeys.
  { intros k v Hk. rewrite lookup_diffMap in Hk.
    destruct (decide (k ∈ leaseKeys)) as [Hin|Hout].
    - split; [done|].
      destruct (leaseKeys_assigned a' _ _ _ k Ht Hd Hm Hp Hin) as [x Hx].
      rewrite Hx in Hk. case_decide; congruence.
    - rewrite (Hframe k Hout) in Hk.
      destruct (a !! k) as [x|]; [by rewrite decide_True in Hk|done]. }
  assert (forall k : string, k ∉ leaseKeys -> diffMap a a' !! k = None) as Hout.
  { intros k Hk. destruct (diffMap a a' !! k) as [v|] eqn:Hv; [|done].
    by apply Hkeys in Hv as [Hin _]. }
  rewrite !diffField_same, diffMap_same.
  repeat split; try done.
  - by eapply Hkeys.
  - by eapply Hkeys.
  - apply Hout. unfold leaseKeys. keys.
    rewrite !not_elem_of_cons. repeat split; try discriminate. apply not_elem_of_nil.
  - simpl. apply applyPatchMap_empty.
  - by destruct m as [meta [cidr]].
  - intros k Hk. rewrite annotation_applyPatch. simpl. by rewrite Hout.
Qed.

(** A node is the node the directory gets from it by the patch of its
    annotated copy. *)
Lemma applyPatch_annotated (ksm : kubeSubnetManager) (n : Node) (a a' : gmap string string) :
  Annotations (Meta n) = Some a ->
  applyPatch
    (call_patch
       (patchCall ksm n (mkNode (mkObjectMeta (Name (Meta n)) (Labels (Meta n)) (Some a'))
                                (Spec n))))
    n
  = mkNode (mkObjectMeta (Name (Meta n)) (Labels (Meta n)) (Some a')) (Spec n).
Proof.
  intros Ha. destruct n as [[name labels ann] [cidr]]. simpl in *. subst ann.
  unfold applyPatch. simpl.
  by rewrite !diffField_same, diffMap_same, applyPatchMap_empty, applyPatchMap_diffMap.
Qed.

(** C1, as the code has it: a call makes no patch call when the backend
    data, backend type and public IP annotations of the cached entry are
    those of the attributes, the marker is the string true, and the override
    annotation is empty or the public IP of the attributes. So it is for a
    second call with the same attributes once the cache holds the entry as
    the patch of the first call left it, provided the override of the entry
    is empty or the public IP of the attributes. *)
Theorem AcquireLease_idempotent
        (ksm : kubeSubnetManager) (now : Time) (attrs : LeaseAttrs) (n : Node) :
  nodeStore ksm !! nodeName ksm = Some n ->
  ((forall bd : string, RawMessage_MarshalJSON (BackendData attrs) = Ok bd ->
      annotation n backendDataAnnotation = bd
      /\ annotation n backendTypeAnnotation = BackendType attrs
      /\ annotation n backendPublicIPAnnotation = IP4_String (PublicIP attrs)
      /\ annotation n subnetKubeManagedAnnotation = "true"
      /\ (annotation n backendPublicIPOverwriteAnnotation = ""
          \/ annotation n backendPublicIPOverwriteAnnotation
             = IP4_String (PublicIP attrs))) ->
   (AcquireLease now attrs ksm).2 = ksm
   /\ patchCalls (client (AcquireLease now attrs ksm).2) = patchCalls (client ksm))
  /\ (annotation n backendPublicIPOverwriteAnnotation = ""
      \/ annotation n backendPublicIPOverwriteAnnotation = IP4_String (PublicIP attrs) ->
      forall call : PatchCall,
        patchCalls (client (AcquireLease now attrs ksm).2)
        = (patchCalls (client ksm) ++ [call])%list ->
        forall now' : Time,
          let ksm2 := cacheNode (applyPatch (call_patch call) n)
                                (AcquireLease now attrs ksm).2 in
          (AcquireLease now' attrs ksm2).2 = ksm2
          /\ patchCalls (client (AcquireLease now' attrs ksm2).2)
             = patchCalls (client ksm2)).
Proof.
  intros Hn. split.
  - intros Hcurrent.
    destruct (AcquireLease_state ksm now attrs)
      as [Hsame|(n0 & n' & bd & Hn0 & Hbd & Hchanged & _)]; [by rewrite Hsame|].
    assert (n0 = n) as -> by congruence.
    apply Hcurrent, leaseChanged_false in Hbd. congruence.
  - intros Hover call
           (n0 & n' & bd & Hn0 & Hbd & Hchanged & Hn' & -> & Hafter)%AcquireLease_wrote
           now' ksm2.
    assert (n0 = n) as -> by congruence.
    apply annotateNode_Ok in Hn' as (a & a' & Ha & -> & Ht & Hd & Hm & Hp & Hframe).
    subst ksm2. rewrite Hafter, (applyPatch_annotated ksm n a a' Ha).
    set (n' := mkNode _ _). set (ksm2 := cacheNode _ _).
    assert (nodeStore ksm2 !! nodeName ksm2 = Some n') as Hn2
      by apply lookup_insert_eq.
    assert (forall k, annotation n' k = default "" (a' !! k)) as Hann by done.
    assert (leaseChanged n' bd attrs = false) as Hcurrent.
    { apply leaseChanged_false. rewrite !Hann, Ht, Hd, Hm, Hp.
      assert (a' !! backendPublicIPOverwriteAnnotation
              = a !! backendPublicIPOverwriteAnnotation) as Hkeep.
      { apply Hframe. unfold leaseKeys. keys.
        rewrite !not_elem_of_cons. repeat split; try discriminate. apply not_elem_of_nil. }
      assert (default "" (a' !! backendPublicIPOverwriteAnnotation)
              = annotation n backendPublicIPOverwriteAnnotation) as ->.
      { unfold annotation, mapIndex, mapIndex2. by rewrite Ha, Hkeep. }
      simpl. repeat split; try done.
      destruct (decide _) as [Hempty|Hset]; [done|].
      by destruct Hover. }
    destruct (AcquireLease_state ksm2 now' attrs)
      as [Hsame|(n0 & n'' & bd' & Hn0' & Hbd' & Hchanged' & _)]; [by rewrite Hsame|].
    assert (n0 = n') as -> by congruence.
    assert (bd' = bd) as -> by congruence.
    congruence.
Qed.

End Acquire.

(** ** The properties on the scenario of the spec *)

Example AcquireLease_fresh :
  AcquireLease (pkgs := dottedPackages) 1000 attrs1 (ksmOf node1_fresh)
  = (Ok (mkLease net_10_1_0_0_24 attrs1 86400000001000),
     received (statusPatch (patch1 "10.0.0.5")) (ksmOf node1_fresh)).
Proof. vm_compute. reflexivity. Qed.

Example AcquireLease_override :
  AcquireLease (pkgs := dottedPackages) 1000 attrs1 (ksmOf node1_override)
  = (Ok (mkLease net_10_1_0_0_24 attrs1 86400000001000),
     received (statusPatch (patch1 "192.0.2.7")) (ksmOf node1_override)).
Proof. vm_compute. reflexivity. Qed.

Lemma unmanaged_entry_no_event_witness :
  mapIndex2 (Annotations (Meta node1_unmarked)) subnetKubeManagedAnnotation ≠ Some "true"
  /\ AddFunc (pkgs := dottedPackages) (ObjNode node1_unmarked) ksm1 = (Ok tt, ksm1)
  /\ DeleteFunc (pkgs := dottedPackages) (ObjNode node1_unmarked) ksm1 = (Ok tt, ksm1)
  /\ forall o : Node,
      UpdateFunc (pkgs := dottedPackages) (ObjNode o) (ObjNode node1_unmarked) ksm1
      = (Ok tt, ksm1).
Proof.
  assert (mapIndex2 (Annotations (Meta node1_unmarked)) subnetKubeManagedAnnotation
          ≠ Some "true") as Hunmarked by (vm_compute; discriminate).
  split; [exact Hunmarked|].
  exact (unmanaged_entry_no_event (pkgs := dottedPackages) node1_unmarked ksm1 Hunmarked).
Defined.

Lemma update_dropping_marker_no_event_witness :
  notManaged node1 = false
  /\ UpdateFunc (pkgs := dottedPackages) (ObjNode node1) (ObjNode node1_unmarked) ksm1_event
     = (Ok tt, ksm1_event)
  /\ events (UpdateFunc (pkgs := dottedPackages) (ObjNode node1) (ObjNode node1_unmarked)
               ksm1_event).2
     = [event1].
Proof.
  assert (notManaged node1 = false) as Hold by (vm_compute; reflexivity).
  assert (mapIndex2 (Annotations (Meta node1_unmarked)) subnetKubeManagedAnnotation
          ≠ Some "true") as Hnew by (vm_compute; discriminate).
  pose proof (update_dropping_marker_no_event (pkgs := dottedPackages)
                node1 node1_unmarked ksm1_event Hnew) as (Hrun & Hevents & _).
  split; [exact Hold|]. split; [exact Hrun|exact Hevents].
Defined.

Lemma update_event_witness :
  UpdateFunc (pkgs := dottedPackages) (ObjNode node1) (ObjNode node1_relabelled) ksm1
  = (Ok tt, ksm1)
  /\ UpdateFunc (pkgs := dottedPackages) (ObjNode node1) (ObjNode node1_vni2) ksm1
     = (Ok tt, mkKSM noReply "node-1" {[ "node-1" := node1 ]}
                     [mkEvent EventAdded (mkLease net_10_1_0_0_24 attrs2 0)])
  /\ UpdateFunc (pkgs := dottedPackages) (ObjNode node1) (ObjNode node1_without_ip) ksm1
     = (Ok tt, ksm1).
Proof.
  split; [|split].
  - assert (notManaged node1_relabelled = false) as Hmanaged by (vm_compute; reflexivity).
    pose proof (update_event (pkgs := dottedPackages) node1 node1_relabelled ksm1 Hmanaged)
      as (Hsame & _ & _).
    apply Hsame. repeat split; vm_compute; reflexivity.
  - assert (notManaged node1_vni2 = false) as Hmanaged by (vm_compute; reflexivity).
    pose proof (update_event (pkgs := dottedPackages) node1 node1_vni2 ksm1 Hmanaged)
      as (_ & Hadded & _).
    apply (Hadded ltac:(intros (Hdata & _); vm_compute in Hdata; discriminate)
                  (mkLease net_10_1_0_0_24 attrs2 0) ltac:(vm_compute; reflexivity)).
    simpl. unfold eventsCap. lia.
  - assert (notManaged node1_without_ip = false) as Hmanaged by (vm_compute; reflexivity).
    pose proof (update_event (pkgs := dottedPackages) node1 node1_without_ip ksm1 Hmanaged)
      as (_ & _ & Hdropped).
    apply (Hdropped ltac:(intros (_ & _ & Hip); vm_compute in Hip; discriminate)
                    (ErrLibrary "Invalid IP address format")).
    vm_compute. reflexivity.
Defined.

(** Against C3 as it is stated: the new entry is opted in and its public IP
    annotation differs from the old entry's, as it has none, yet the update
    puts no event in the channel, because the entry does not translate to a
    lease. *)
Lemma update_untranslatable_no_event :
  notManaged node1_without_ip = false
  /\ annotation node1 backendPublicIPAnnotation
     ≠ annotation node1_without_ip backendPublicIPAnnotation
  /\ nodeToLease (pkgs := dottedPackages) node1_without_ip
     = Err (ErrLibrary "Invalid IP address format")
  /\ events ksm1 = []
  /\ UpdateFunc (pkgs := dottedPackages) (ObjNode node1) (ObjNode node1_without_ip) ksm1
     = (Ok tt, ksm1).
Proof.
  repeat split; vm_compute; try reflexivity. discriminate.
Qed.

Lemma WatchLeases_select_witness :
  WatchLeases caseEvent true ksm1 = (Ok (mkLeaseWatchResult [] []), ksm1)
  /\ WatchLeases caseDone false ksm1_event = (Ok (mkLeaseWatchResult [event1] []), ksm1).
Proof.
  split.
  - apply (WatchLeases_select caseEvent ksm1). reflexivity.
  - apply (proj2 (WatchLeases_select caseDone ksm1_event) event1 []). reflexivity.
Defined.

(** Against C7 as it is stated: an event is available, the context is done
    as well, the select takes the case of the context, and the call returns
    the empty result and leaves the event in the channel. *)
Lemma WatchLeases_event_available_empty_result :
  events ksm1_event = [event1]
  /\ WatchLeases caseDone true ksm1_event = (Ok (mkLeaseWatchResult [] []), ksm1_event).
Proof. split; reflexivity. Qed.

Lemma AcquireLease_pod_cidr_not_assigned_witness :
  PodCIDR (Spec node1_unassigned) = ""
  /\ AcquireLease (pkgs := dottedPackages) 1000 attrs1 (ksmOf node1_unassigned)
     = (Err (ErrPodCIDRNotAssigned "node-1"), ksmOf node1_unassigned)
  /\ patchCalls (client (AcquireLease (pkgs := dottedPackages) 1000 attrs1
                           (ksmOf node1_unassigned)).2)
     = [].
Proof.
  split; [reflexivity|].
  apply (AcquireLease_pod_cidr_not_assigned (pkgs := dottedPackages)
           (ksmOf node1_unassigned) 1000 attrs1 node1_unassigned).
  - vm_compute. reflexivity.
  - reflexivity.
Defined.

Lemma AcquireLease_lease_witness :
  AcquireLease (pkgs := dottedPackages) 1000 attrs1 (ksmOf node1_fresh)
  = (Ok (lease1 1000), received (statusPatch (patch1 "10.0.0.5")) (ksmOf node1_fresh))
  /\ exists (n : Node) (cidr : IP4Net),
      nodeStore (ksmOf node1_fresh) !! "node-1" = Some n
      /\ ParseCIDR_dotted (PodCIDR (Spec n)) = Ok cidr
      /\ Subnet (lease1 1000) = cidr
      /\ Attrs (lease1 1000) = attrs1
      /\ Expiration (lease1 1000) = 1000 + 24 * 3600 * 1000000000.
Proof.
  assert (AcquireLease (pkgs := dottedPackages) 1000 attrs1 (ksmOf node1_fresh)
          = (Ok (lease1 1000),
             received (statusPatch (patch1 "10.0.0.5")) (ksmOf node1_fresh))) as Hrun
    by (vm_compute; reflexivity).
  split; [exact Hrun|].
  exact (AcquireLease_lease (pkgs := dottedPackages) _ _ 1000 attrs1 (lease1 1000) Hrun).
Defined.

Lemma override_precedence_witness :
  annotation node1_override backendPublicIPOverwriteAnnotation = "192.0.2.7"
  /\ "192.0.2.7" ≠ IP4_String_dotted (PublicIP attrs1)
  /\ patchCalls (client (AcquireLease (pkgs := dottedPackages) 1000 attrs1
                           (ksmOf node1_override)).2)
     = [statusPatch (patch1 "192.0.2.7")]
  /\ annotation (applyPatch (patch1 "192.0.2.7") node1_override) backendPublicIPAnnotation
     = "192.0.2.7"
  /\ patchAnnotations (patch1 "192.0.2.7") !! backendPublicIPAnnotation
     ≠ Some (Some (IP4_String_dotted (PublicIP attrs1))).
Proof.
  assert (annotation node1_override backendPublicIPOverwriteAnnotation = "192.0.2.7")
    as Hover by (vm_compute; reflexivity).
  assert ("192.0.2.7" ≠ IP4_String_dotted (PublicIP attrs1))
    as Hdiffers by (vm_compute; discriminate).
  assert (patchCalls (client (AcquireLease (pkgs := dottedPackages) 1000 attrs1
                                (ksmOf node1_override)).2)
          = [statusPatch (patch1 "192.0.2.7")]) as Hcalls by (vm_compute; reflexivity).
  pose proof (override_precedence (pkgs := dottedPackages) (ksmOf node1_override) 1000
                attrs1 node1_override "192.0.2.7"
                ltac:(vm_compute; reflexivity) Hover ltac:(discriminate) Hdiffers)
    as [Hwritten _].
  destruct (Hwritten (statusPatch (patch1 "192.0.2.7")) Hcalls) as (Hentry & Hnot & _).
  repeat split; assumption.
Defined.

Lemma lease_differs_from_written_annotation_witness :
  AcquireLease (pkgs := dottedPackages) 1000 attrs1 (ksmOf node1_override)
  = (Ok (lease1 1000), received (statusPatch (patch1 "192.0.2.7")) (ksmOf node1_override))
  /\ PublicIP (Attrs (lease1 1000)) = ip_10_0_0_5
  /\ exists call : PatchCall,
      received (statusPatch (patch1 "192.0.2.7")) (ksmOf node1_override)
      = received call (ksmOf node1_override)
      /\ annotation (applyPatch (call_patch call) node1_override) backendPublicIPAnnotation
         = "192.0.2.7"
      /\ annotation (applyPatch (call_patch call) node1_override) backendPublicIPAnnotation
         ≠ IP4_String_dotted (PublicIP (Attrs (lease1 1000))).
Proof.
  assert (AcquireLease (pkgs := dottedPackages) 1000 attrs1 (ksmOf node1_override)
          = (Ok (lease1 1000),
             received (statusPatch (patch1 "192.0.2.7")) (ksmOf node1_override))) as Hrun
    by (vm_compute; reflexivity).
  split; [exact Hrun|].
  exact (lease_differs_from_written_annotation (pkgs := dottedPackages)
           (ksmOf node1_override) _ 1000 attrs1 (lease1 1000) node1_override "192.0.2.7"
           ltac:(vm_compute; reflexivity) ltac:(vm_compute; reflexivity)
           ltac:(discriminate) ltac:(vm_compute; discriminate) Hrun).
Defined.

Lemma patch_frame_witness :
  patchCalls (client (AcquireLease (pkgs := dottedPackages) 1000 attrs1
                        (ksmOf node1_fresh)).2)
  = [statusPatch (patch1 "10.0.0.5")]
  /\ (forall (k : string) (v : option string),
        patchAnnotations (patch1 "10.0.0.5") !! k = Some v -> k ∈ leaseKeys /\ v ≠ None)
  /\ patchAnnotations (patch1 "10.0.0.5") !! backendPublicIPOverwriteAnnotation = None
  /\ forall k : string, k ∉ leaseKeys ->
       annotation (applyPatch (patch1 "10.0.0.5") node1_override) k
       = annotation node1_override k.
Proof.
  assert (patchCalls (client (AcquireLease (pkgs := dottedPackages) 1000 attrs1
                                (ksmOf node1_fresh)).2)
          = [statusPatch (patch1 "10.0.0.5")]) as Hcalls by (vm_compute; reflexivity).
  pose proof (patch_frame (pkgs := dottedPackages) (ksmOf node1_fresh) 1000 attrs1
                (statusPatch (patch1 "10.0.0.5")) Hcalls)
    as (_ & _ & Hkeys & Hover & _ & _ & _ & Hframe).
  split; [exact Hcalls|]. split; [exact Hkeys|]. split; [exact Hover|].
  exact (proj2 (proj2 (proj2 (Hframe node1_override)))).
Defined.

Lemma AcquireLease_idempotent_witness :
  (AcquireLease (pkgs := dottedPackages) 1000 attrs1 ksm1).2 = ksm1
  /\ patchCalls (client (AcquireLease (pkgs := dottedPackages) 1000 attrs1
                           (ksmOf node1_fresh)).2)
     = [statusPatch (patch1 "10.0.0.5")]
  /\ let ksm2 :=
       cacheNode (applyPatch (patch1 "10.0.0.5") node1_fresh)
                 (AcquireLease (pkgs := dottedPackages) 1000 attrs1 (ksmOf node1_fresh)).2 in
     (AcquireLease (pkgs := dottedPackages) 2000 attrs1 ksm2).2 = ksm2
     /\ patchCalls (client (AcquireLease (pkgs := dottedPackages) 2000 attrs1 ksm2).2)
        = [statusPatch (patch1 "10.0.0.5")].
Proof.
  assert (patchCalls (client (AcquireLease (pkgs := dottedPackages) 1000 attrs1
                                (ksmOf node1_fresh)).2)
          = [statusPatch (patch1 "10.0.0.5")]) as Hcalls by (vm_compute; reflexivity).
  split; [|split; [exact Hcalls|]].
  - apply (proj1 (AcquireLease_idempotent (pkgs := dottedPackages) ksm1 1000 attrs1 node1
                    ltac:(vm_compute; reflexivity))).
    intros bd Hbd. injection Hbd as <-.
    repeat split; try (vm_compute; reflexivity). left. vm_compute. reflexivity.
  - exact (proj2 (AcquireLease_idempotent (pkgs := dottedPackages) (ksmOf node1_fresh) 1000
                    attrs1 node1_fresh ltac:(vm_compute; reflexivity))
                 ltac:(left; vm_compute; reflexivity)
                 (statusPatch (patch1 "10.0.0.5")) Hcalls 2000).
Defined.

(** Against C1 as it is stated: the entry has a public IP override that is
    not the public IP of the attributes. The first call writes; the cache
    holds the entry as that patch left it, and annotating it again changes
    nothing in it: it reflects the state the write is after. The second call,
    with the same attributes, still makes a patch call, with an empty
    patch. *)
Lemma second_call_with_override_writes :
  let first := AcquireLease (pkgs := dottedPackages) 1000 attrs1 (ksmOf node1_override) in
  let written := applyPatch (patch1 "192.0.2.7") node1_override in
  let ksm2 := cacheNode written first.2 in
  first = (Ok (lease1 1000),
           received (statusPatch (patch1 "192.0.2.7")) (ksmOf node1_override))
  /\ nodeStore ksm2 !! nodeName ksm2 = Some written
  /\ annotateNode (pkgs := dottedPackages) written (vni "1") attrs1 = Ok written
  /\ AcquireLease (pkgs := dottedPackages) 2000 attrs1 ksm2
     = (Ok (lease1 2000), received (statusPatch emptyPatch) ksm2)
  /\ patchCalls (client (AcquireLease (pkgs := dottedPackages) 2000 attrs1 ksm2).2)
     = (patchCalls (client ksm2) ++ [statusPatch emptyPatch])%list.
Proof.
  repeat split; vm_compute; reflexivity.
Qed.
